(** * django-utm-tracker: the LeadSource model and its factory

    A shallow embedding of [utm_tracker/models.py] and of the schema
    revision [utm_tracker/migrations/0004_leadsource_session_key.py].

    The repository code is a thin layer on top of Django.  The parts of
    Django and of Python that the code calls are modelled here as far as
    the code depends on them:
    - Python exceptions, [dict] subscription and [dict.get], [repr] of a
      string and the [try] / [except KeyError] statement;
    - [timezone.now], as reads of a clock that never runs backwards;
    - [Model.__init__], [Model.save] and [Manager.create];
    - the schema editor's [AddField] operation. *)

From Stdlib Require Import ZArith Ascii String DecimalString DecimalZ.
From stdpp Require Import base gmap strings list.

Local Open Scope Z_scope.
Local Open Scope string_scope.

(** ** Python values and exceptions *)

Module Python.

(** The exceptions that can reach [create_from_utm_params], by what the
    handler [except KeyError] makes of them.  [KeyError key] is an
    instance of [KeyError] or of a class derived from it (Django's
    [MultiValueDictKeyError], ...), with the key it carries: the handler
    catches all of these, and they print as [KeyError] does.  An
    instance of a class that does not derive from [KeyError] is a
    [ValueError], or an [OtherError] with its class name and message
    (Django's [IntegrityError], [DataError], [OperationalError], ...). *)
Inductive exn : Type :=
| KeyError (key : string)
| ValueError (msg : string)
| OtherError (cls msg : string).

Definition is_KeyError (e : exn) : bool :=
  match e with KeyError _ => true | _ => false end.

Inductive result (A : Type) : Type :=
| Return (a : A)
| Raise (e : exn).
Arguments Return {A} a.
Arguments Raise {A} e.

(** [d[k]]: subscription raises [KeyError(k)] on a missing key. *)
Definition getitem (d : gmap string string) (k : string) : result string :=
  match d !! k with
  | Some v => Return v
  | None => Raise (KeyError k)
  end.

(** [d.get(k, default)] never raises. *)
Definition get (d : gmap string string) (k default : string) : string :=
  match d !! k with
  | Some v => v
  | None => default
  end.

(** *** [repr] of a string

    Strings are byte strings here; the bytes above 127 stand for the
    UTF-8 encoding of printable characters, which [repr] leaves as
    they are. *)

Definition squote : ascii := ascii_of_nat 39.
Definition dquote : ascii := ascii_of_nat 34.
Definition backslash : ascii := ascii_of_nat 92.

Definition ascii_eqb (a b : ascii) : bool := bool_decide (a = b).

Fixpoint contains (c : ascii) (s : string) : bool :=
  match s with
  | EmptyString => false
  | String a s' => ascii_eqb a c || contains c s'
  end.

Definition hex_digit (n : nat) : ascii :=
  match String.get n "0123456789abcdef" with
  | Some c => c
  | None => "0"%char
  end.

Definition repr_quote (s : string) : ascii :=
  if contains squote s && negb (contains dquote s) then dquote else squote.

Definition repr_char (q c : ascii) : string :=
  let n := nat_of_ascii c in
  if ascii_eqb c q || ascii_eqb c backslash then String backslash (String c "")
  else if (n =? 9)%nat then String backslash "t"
  else if (n =? 10)%nat then String backslash "n"
  else if (n =? 13)%nat then String backslash "r"
  else if (n <? 32)%nat || (n =? 127)%nat then
    String backslash
      (String "x" (String (hex_digit (n / 16)) (String (hex_digit (n mod 16)) "")))
  else String c "".

Fixpoint repr_body (q : ascii) (s : string) : string :=
  match s with
  | EmptyString => ""
  | String c s' => repr_char q c +:+ repr_body q s'
  end.

Definition repr (s : string) : string :=
  let q := repr_quote s in
  String q (repr_body q s +:+ String q "").

(** [str(ex)] inside an f-string.  A [KeyError] with one argument
    prints the [repr] of that argument. *)
Definition str_exn (e : exn) : string :=
  match e with
  | KeyError k => repr k
  | ValueError m => m
  | OtherError _ m => m
  end.

End Python.
Export Python.

(** ** The model class *)

(** [django.contrib.sessions.backends.base.SessionBase], as far as the
    factory reads it: the [session_key] property, [None] when the session
    has not been saved. *)
Record SessionBase : Type := { session_key : option string }.

(** Modelled from the spec: [utm_tracker/types.py] is not among the
    sources.  [UtmParamsDict] is "a mapping of string keys to string
    values". *)
Abbreviation UtmParamsDict := (gmap string string).

(** An instance of [LeadSource].  [id] is [None] until the instance has
    been saved; [user_id] is the primary key of the user the instance
    refers to; a [session_key] of [None] is Python's [None]; the two
    date-times are clock values. *)
Record LeadSource : Type := {
  id : option Z;
  user_id : Z;
  medium : string;
  source : string;
  campaign : string;
  term : string;
  content : string;
  timestamp : Z;
  ls_session_key : option string;
  created_at : Z
}.

(** The keyword arguments of [LeadSource(...)].  The three fields
    that declare a default may be left out ([None] at the outer level). *)
Record kwargs : Type := {
  kw_user : Z;
  kw_medium : string;
  kw_source : string;
  kw_campaign : string;
  kw_term : string;
  kw_content : string;
  kw_timestamp : option Z;
  kw_session_key : option (option string);
  kw_created_at : option Z
}.

(** ** The world: the table of lead sources and the clock *)

Record World : Type := {
  db_rows : list LeadSource;
  db_next_id : Z;
  now : Z;
  clock_reads : nat
}.

(** A refused [INSERT]: the exception that the database raises, and
    whether it had drawn the next identifier before it refused the row.
    A PostgreSQL sequence draws the value first and does not give it
    back; SQLite assigns the identifier only to a row that it stores. *)
Record refusal : Type := {
  raised : exn;
  id_drawn : bool
}.

Definition draw_id (drawn : bool) (w : World) : World :=
  if drawn
  then {| db_rows := db_rows w; db_next_id := db_next_id w + 1;
          now := now w; clock_reads := clock_reads w |}
  else w.

(** Computations that read the clock, write the table and may raise. *)
Definition M (A : Type) : Type := World → result A * World.

Definition ret {A} (a : A) : M A := λ w, (Return a, w).
Definition raise {A} (e : exn) : M A := λ w, (Raise e, w).
Definition bind {A B} (m : M A) (k : A → M B) : M B :=
  λ w, match m w with
       | (Return a, w') => k a w'
       | (Raise e, w') => (Raise e, w')
       end.

(** [try: body except KeyError as ex: handler ex] *)
Definition try_except_KeyError {A} (body : M A) (handler : exn → M A) : M A :=
  λ w, match body w with
       | (Raise (KeyError k), w') => handler (KeyError k) w'
       | r => r
       end.

Definition lift {A} (r : result A) : M A := λ w, (r, w).

Declare Scope m_scope.
Delimit Scope m_scope with M.
Notation "x <- m ;; k" := (bind m (λ x, k))
  (at level 100, m at next level, right associativity) : m_scope.

Section Factory.

(** Time passes between two events: [elapse n] is how far the clock
    advances after its [n]-th read. *)
Variable elapse : nat → N.

(** The verdict of the database on an [INSERT]: [None] when it
    accepts the row, the refusal otherwise (a constraint or a length
    that the backend enforces, a lost connection, ...). *)
Variable db_check : list LeadSource → LeadSource → option refusal.

(** [django.utils.timezone.now()] *)
Definition timezone_now : M Z :=
  λ w, (Return (now w),
        {| db_rows := db_rows w; db_next_id := db_next_id w;
           now := now w + Z.of_N (elapse (clock_reads w));
           clock_reads := S (clock_reads w) |}).

Definition default_or {A} (given : option A) (default : M A) : M A :=
  match given with
  | Some v => ret v
  | None => default
  end.

(** [Model.__init__]: each field, in the order of its declaration,
    takes the keyword argument of its name or, when that is left out,
    its default.  [timestamp] and [created_at] both default to
    [timezone.now] (two calls), [session_key] to the empty string. *)
Definition Model_init (kw : kwargs) : M LeadSource :=
  (ts <- default_or (kw_timestamp kw) timezone_now ;;
   sk <- default_or (kw_session_key kw) (ret (Some "")) ;;
   ca <- default_or (kw_created_at kw) timezone_now ;;
   ret {| id := None;
          user_id := kw_user kw;
          medium := kw_medium kw;
          source := kw_source kw;
          campaign := kw_campaign kw;
          term := kw_term kw;
          content := kw_content kw;
          timestamp := ts;
          ls_session_key := sk;
          created_at := ca |})%M.

Definition set_id (pk : Z) (obj : LeadSource) : LeadSource :=
  {| id := Some pk;
     user_id := user_id obj;
     medium := medium obj;
     source := source obj;
     campaign := campaign obj;
     term := term obj;
     content := content obj;
     timestamp := timestamp obj;
     ls_session_key := ls_session_key obj;
     created_at := created_at obj |}.

(** [obj.save(force_insert=True)]: one [INSERT].  Either the database
    raises and the rows are as before (the identifier that the database
    may have drawn for the row is lost), or the row is appended under
    the next primary key, which is set on the instance.  No validation
    runs here: [save] does not call [full_clean]. *)
Definition save (obj : LeadSource) : M LeadSource :=
  λ w, match db_check (db_rows w) obj with
       | Some rf => (Raise (raised rf), draw_id (id_drawn rf) w)
       | None =>
           let obj' := set_id (db_next_id w) obj in
           (Return obj',
            {| db_rows := db_rows w ++ [obj'];
               db_next_id := db_next_id w + 1;
               now := now w;
               clock_reads := clock_reads w |})
       end.

(** [Manager.create] *)
Definition objects_create (kw : kwargs) : M LeadSource :=
  (obj <- Model_init kw ;; save obj)%M.

(** The arguments of the call to [create], evaluated from left to
    right: the two subscriptions may raise [KeyError], [get] may not.
    [timestamp] and [created_at] are not passed. *)
Definition create_args (user : Z) (session : SessionBase)
    (utm_params : UtmParamsDict) : result kwargs :=
  match getitem utm_params "utm_medium" with
  | Raise e => Raise e
  | Return m =>
      match getitem utm_params "utm_source" with
      | Raise e => Raise e
      | Return s =>
          Return {| kw_user := user;
                    kw_medium := m;
                    kw_source := s;
                    kw_campaign := get utm_params "utm_campaign" "";
                    kw_term := get utm_params "utm_term" "";
                    kw_content := get utm_params "utm_content" "";
                    kw_timestamp := None;
                    kw_session_key := Some (session_key session);
                    kw_created_at := None |}
      end
  end.

(** [LeadSourceManager.create_from_utm_params] *)
Definition create_from_utm_params (user : Z) (session : SessionBase)
    (utm_params : UtmParamsDict) : M LeadSource :=
  try_except_KeyError
    (kw <- lift (create_args user session utm_params) ;;
     objects_create kw)%M
    (λ ex, raise (ValueError ("Missing utm param: " +:+ str_exn ex))).

(** The instance that [Model.__init__] builds in world [w] from the
    factory's keyword arguments: both date-times come from the clock. *)
Definition built (kw : kwargs) (sk : option string) (w : World) : LeadSource :=
  {| id := None;
     user_id := kw_user kw;
     medium := kw_medium kw;
     source := kw_source kw;
     campaign := kw_campaign kw;
     term := kw_term kw;
     content := kw_content kw;
     timestamp := now w;
     ls_session_key := sk;
     created_at := now w + Z.of_N (elapse (clock_reads w)) |}.

Definition after_init (w : World) : World :=
  {| db_rows := db_rows w; db_next_id := db_next_id w;
     now := now w + Z.of_N (elapse (clock_reads w))
            + Z.of_N (elapse (S (clock_reads w)));
     clock_reads := S (S (clock_reads w)) |}.

Definition after_save (r : LeadSource) (w : World) : World :=
  {| db_rows := db_rows w ++ [r]; db_next_id := db_next_id w + 1;
     now := now w + Z.of_N (elapse (clock_reads w))
            + Z.of_N (elapse (S (clock_reads w)));
     clock_reads := S (S (clock_reads w)) |}.

(** The three ways in which a call can end. *)
Inductive outcome (user : Z) (session : SessionBase) (p : UtmParamsDict)
    (w : World) : result LeadSource → World → Prop :=
| outcome_missing k :
    create_args user session p = Raise (KeyError k) →
    outcome user session p w
      (Raise (ValueError ("Missing utm param: " +:+ repr k))) w
| outcome_db_error kw rf :
    create_args user session p = Return kw →
    db_check (db_rows w) (built kw (session_key session) w) = Some rf →
    outcome user session p w
      (match raised rf with
       | KeyError k => Raise (ValueError ("Missing utm param: " +:+ repr k))
       | e => Raise e
       end) (draw_id (id_drawn rf) (after_init w))
| outcome_created kw :
    create_args user session p = Return kw →
    db_check (db_rows w) (built kw (session_key session) w) = None →
    let r := set_id (db_next_id w) (built kw (session_key session) w) in
    outcome user session p w (Return r) (after_save r w).

End Factory.

(** ** The printing methods of the model *)

(** [str(n)] of an integer: its decimal digits, after a minus sign when
    it is negative. *)
Definition str_int (z : Z) : string := NilEmpty.string_of_int (Z.to_int z).

(** [self.id] inside an f-string: the primary key, or [None] as long as
    the instance has not been saved. *)
Definition str_id (i : option Z) : string :=
  match i with
  | Some z => str_int z
  | None => "None"
  end.

(** [LeadSource.__repr__] *)
Definition __repr__ (self : LeadSource) : string :=
  "<LeadSource id=" +:+ str_id (id self) +:+ " user=" +:+ str_int (user_id self)
  +:+ " medium='" +:+ medium self +:+ "' source='" +:+ source self +:+ "'>".

(** [LeadSource.__str__].  [str_user pk] is [str] of the user with that
    primary key, which the user model defines. *)
Definition __str__ (str_user : Z → string) (self : LeadSource) : string :=
  "Lead source " +:+ str_id (id self) +:+ " for " +:+ str_user (user_id self)
  +:+ ": " +:+ medium self +:+ "/" +:+ source self.

(** An instance with other [medium] and [source]. *)
Definition with_medium_source (m s : string) (self : LeadSource) : LeadSource :=
  {| id := id self;
     user_id := user_id self;
     medium := m;
     source := s;
     campaign := campaign self;
     term := term self;
     content := content self;
     timestamp := timestamp self;
     ls_session_key := ls_session_key self;
     created_at := created_at self |}.

(** ** [Meta.get_latest_by] *)

Definition later (a b : LeadSource) : LeadSource :=
  if (timestamp a <? timestamp b)%Z then b else a.

(** [LeadSource.objects.latest()]: with [get_latest_by = ("timestamp",)]
    a row whose [timestamp] is the greatest; [DoesNotExist] on an empty
    table.  Which row is returned among several with the greatest
    [timestamp] is up to the database; here it is the oldest of them. *)
Definition latest (w : World) : result LeadSource :=
  match db_rows w with
  | [] => Raise (OtherError "DoesNotExist" "LeadSource matching query does not exist.")
  | r :: rs => Return (foldl later r rs)
  end.

(** ** Callers of the factory *)

(** The arguments of one call. *)
Record call : Type := {
  call_user : Z;
  call_session : SessionBase;
  call_params : UtmParamsDict
}.

(** The records among the results of a series of calls. *)
Definition returned (rs : list (result LeadSource)) : list LeadSource :=
  omap (λ r, match r with Return a => Some a | Raise _ => None end) rs.

(** The table in which every row has an identifier below the next one
    to be assigned, and no identifier occurs twice. *)
Definition identifiers_ok (w : World) : Prop :=
  (∀ r, r ∈ db_rows w → ∃ i, id r = Some i ∧ (i < db_next_id w)%Z) ∧
  NoDup (id <$> db_rows w).

(** No row of the table is dated after the present time. *)
Definition dated_in_the_past (w : World) : Prop :=
  ∀ r, r ∈ db_rows w → (timestamp r ≤ now w)%Z ∧ (created_at r ≤ now w)%Z.

Section Calls.

Variable elapse : nat → N.
Variable db_check : list LeadSource → LeadSource → option refusal.

(** A caller that makes the calls one after the other and goes on after
    a call that raises. *)
Fixpoint run_calls (cs : list call) (w : World) : list (result LeadSource) * World :=
  match cs with
  | [] => ([], w)
  | c :: cs' =>
      let '(res, w1) :=
        create_from_utm_params elapse db_check
          (call_user c) (call_session c) (call_params c) w in
      let '(rs, w2) := run_calls cs' w1 in
      (res :: rs, w2)
  end.

End Calls.


(** The five keys that the factory reads from [utm_params]. *)
Definition utm_keys : list string :=
  ["utm_medium"; "utm_source"; "utm_campaign"; "utm_term"; "utm_content"].

(** ** The schema revision 0004 *)

Module Migration_0004.

(** A stored value of a column. *)
Inductive value : Type :=
| VNull
| VStr (s : string)
| VInt (z : Z).

(** [models.CharField(...)] with the options that the revision sets;
    [null] is Django's default [False] when it is not given. *)
Record CharField : Type := {
  blank : bool;
  default : option string;
  help_text : string;
  max_length : Z;
  null : bool
}.

Inductive operation : Type :=
| AddField (model_name name : string) (field : CharField).

Record MigrationClass : Type := {
  dependencies : list (string * string);
  operations : list operation
}.

(** [class Migration(migrations.Migration)] *)
Definition Migration : MigrationClass :=
  {| dependencies := [("utm_tracker", "0003_increase_medium_chars")];
     operations :=
       [AddField "leadsource" "session_key"
          {| blank := true;
             default := Some "";
             help_text := "The session in which the params were captured.";
             max_length := 40;
             null := false |}] |}.

(** A table: its columns, and its rows as maps from column to value. *)
Record table : Type := {
  columns : list string;
  rows : list (gmap string value)
}.

(** The tables of the database, by model name. *)
Abbreviation database := (gmap string table).

(** The schema editor's effective default of a new column: the field's
    default when it has one, the empty string for a [blank], non-null
    text field, and [NULL] otherwise. *)
Definition effective_default (f : CharField) : value :=
  match default f with
  | Some d => VStr d
  | None => if negb (null f) && blank f then VStr "" else VNull
  end.

Definition is_null (v : value) : bool :=
  match v with VNull => true | _ => false end.

Definition is_empty {A} (l : list A) : bool :=
  match l with [] => true | _ => false end.

(** [ALTER TABLE ... ADD COLUMN name ... DEFAULT d] on a table that does
    not have the column: refused ([None]) when existing rows would get
    [NULL] in a column that does not allow it; otherwise every existing
    row gets the effective default in the new column.  On a table that
    has the column already the outcome is the backend's own (PostgreSQL
    refuses the statement, Django's SQLite editor rebuilds the table);
    it is not modelled, and [None] stands for it too. *)
Definition add_field (t : table) (name : string) (f : CharField) : option table :=
  if bool_decide (name ∈ columns t) then None
  else
    let d := effective_default f in
    if is_null d && negb (null f) && negb (is_empty (rows t)) then None
    else Some {| columns := columns t ++ [name];
                 rows := (λ r, <[name := d]> r) <$> rows t |}.

Definition apply_operation (op : operation) (db : database) : option database :=
  match op with
  | AddField model name f =>
      match db !! model with
      | None => None
      | Some t =>
          match add_field t name f with
          | None => None
          | Some t' => Some (<[model := t']> db)
          end
      end
  end.

Fixpoint apply_operations (ops : list operation) (db : database) : option database :=
  match ops with
  | [] => Some db
  | op :: ops' =>
      match apply_operation op db with
      | None => None
      | Some db' => apply_operations ops' db'
      end
  end.

Definition apply_migration (m : MigrationClass) (db : database) : option database :=
  apply_operations (operations m) db.

(** Reading a column of a row back. *)
Definition read_back (r : gmap string value) (column : string) : option value :=
  r !! column.

(** The table after the revision. *)
Definition with_session_key (t : table) : table :=
  {| columns := (columns t ++ ["session_key"])%list;
     rows := (λ r, <["session_key" := VStr ""]> r) <$> rows t |}.

(** Unapplying the revision.  The reverse of [AddField] drops the
    column from the table and from every row; it is refused when the
    table has no such column. *)
Definition remove_field (t : table) (name : string) : option table :=
  if bool_decide (name ∈ columns t)
  then Some {| columns := filter (λ c, c ≠ name) (columns t);
               rows := (λ r, delete name r) <$> rows t |}
  else None.

Definition unapply_operation (op : operation) (db : database) : option database :=
  match op with
  | AddField model name f =>
      match db !! model with
      | None => None
      | Some t =>
          match remove_field t name with
          | None => None
          | Some t' => Some (<[model := t']> db)
          end
      end
  end.

(** The operations are undone from the last to the first. *)
Fixpoint unapply_operations (ops : list operation) (db : database) : option database :=
  match ops with
  | [] => Some db
  | op :: ops' =>
      match unapply_operations ops' db with
      | None => None
      | Some db' => unapply_operation op db'
      end
  end.

Definition unapply_migration (m : MigrationClass) (db : database) : option database :=
  unapply_operations (operations m) db.

End Migration_0004.

(** ** Sample worlds, used to run the definitions *)

Module Samples.

(** One unit of time passes after every read of the clock. *)
Definition one_tick (_ : nat) : N := 1%N.

(** A database that accepts every row. *)
Definition accept_all (_ : list LeadSource) (_ : LeadSource) : option refusal := None.

(** A backend that enforces the declared [max_length] of the text
    fields and the [NOT NULL] constraint of [session_key], and that
    draws the identifier before it checks the row, as PostgreSQL does. *)
Definition strict_check (_ : list LeadSource) (obj : LeadSource) : option refusal :=
  if (30 <? String.length (medium obj))%nat || (30 <? String.length (source obj))%nat
     || (100 <? String.length (campaign obj))%nat || (50 <? String.length (term obj))%nat
     || (50 <? String.length (content obj))%nat
  then Some {| raised := OtherError "DataError" "value too long"; id_drawn := true |}
  else match ls_session_key obj with
       | None =>
           Some {| raised := OtherError "IntegrityError"
                               "null value in column session_key";
                   id_drawn := true |}
       | Some k =>
           if (40 <? String.length k)%nat
           then Some {| raised := OtherError "DataError" "value too long";
                        id_drawn := true |}
           else None
       end.

(** A database whose insert raises a [KeyError]. *)
Definition key_error_check (_ : list LeadSource) (_ : LeadSource) : option refusal :=
  Some {| raised := KeyError "pk"; id_drawn := false |}.

Definition empty_world : World :=
  {| db_rows := []; db_next_id := 1; now := 1000; clock_reads := 0 |}.

Definition session_abc : SessionBase := {| session_key := Some "abc" |}.
Definition session_empty : SessionBase := {| session_key := Some "" |}.
Definition session_none : SessionBase := {| session_key := None |}.

Definition params_cpc : UtmParamsDict :=
  {[ "utm_medium" := "cpc"; "utm_source" := "google" ]}.
Definition params_no_medium : UtmParamsDict := {[ "utm_source" := "google" ]}.
Definition params_no_source : UtmParamsDict := {[ "utm_medium" := "email" ]}.
Definition params_empty_medium : UtmParamsDict :=
  {[ "utm_medium" := ""; "utm_source" := "google" ]}.
Definition params_extra : UtmParamsDict :=
  {[ "utm_medium" := "cpc"; "utm_source" := "google"; "gclid" := "xyz" ]}.

Definition params_long_medium : UtmParamsDict :=
  {[ "utm_medium" := "a-medium-of-more-than-thirty-characters";
     "utm_source" := "google" ]}.

(** The record that the first call with [params_cpc] creates in
    [empty_world], and the world after it. *)
Definition cpc_record (sk : option string) : LeadSource :=
  {| id := Some 1; user_id := 7; medium := "cpc"; source := "google";
     campaign := ""; term := ""; content := "";
     timestamp := 1000; ls_session_key := sk; created_at := 1001 |}.

Definition cpc_world (sk : option string) : World :=
  {| db_rows := [cpc_record sk]; db_next_id := 2; now := 1002; clock_reads := 2 |}.

Definition empty_medium_record : LeadSource :=
  {| id := Some 1; user_id := 7; medium := ""; source := "google";
     campaign := ""; term := ""; content := "";
     timestamp := 1000; ls_session_key := Some "abc"; created_at := 1001 |}.

Definition cpc_kwargs : kwargs :=
  {| kw_user := 7; kw_medium := "cpc"; kw_source := "google";
     kw_campaign := ""; kw_term := ""; kw_content := "";
     kw_timestamp := None; kw_session_key := Some (Some "abc");
     kw_created_at := None |}.

(** The world after a refused insert: the clock has been read twice. *)
Definition refused_world : World :=
  {| db_rows := []; db_next_id := 1; now := 1002; clock_reads := 2 |}.

(** The same, when the database had drawn the identifier 1 for the row
    that it refused. *)
Definition skipped_world : World :=
  {| db_rows := []; db_next_id := 2; now := 1002; clock_reads := 2 |}.

(** The table as it was before revision 0004, with one row. *)
Definition old_row : gmap string Migration_0004.value :=
  {[ "id" := Migration_0004.VInt 1;
     "medium" := Migration_0004.VStr "cpc";
     "source" := Migration_0004.VStr "google" ]}.

Definition old_table : Migration_0004.table :=
  {| Migration_0004.columns :=
       ["id"; "user_id"; "medium"; "source"; "campaign"; "term"; "content";
        "timestamp"; "created_at"];
     Migration_0004.rows := [old_row] |}.

Definition old_database : gmap string Migration_0004.table :=
  {[ "leadsource" := old_table ]}.

Definition params_empty_term : UtmParamsDict :=
  {[ "utm_medium" := "cpc"; "utm_source" := "google"; "utm_term" := "" ]}.

Definition call_cpc : call :=
  {| call_user := 7; call_session := session_abc; call_params := params_cpc |}.
Definition call_long_medium : call :=
  {| call_user := 7; call_session := session_abc; call_params := params_long_medium |}.
Definition call_no_medium : call :=
  {| call_user := 8; call_session := session_abc; call_params := params_no_medium |}.

(** The record that a second call with [params_cpc] creates, right after
    the first, and the world after it. *)
Definition next_record : LeadSource :=
  {| id := Some 2; user_id := 7; medium := "cpc"; source := "google";
     campaign := ""; term := ""; content := "";
     timestamp := 1002; ls_session_key := Some "abc"; created_at := 1003 |}.

Definition next_world : World :=
  {| db_rows := [cpc_record (Some "abc"); next_record]; db_next_id := 3;
     now := 1004; clock_reads := 4 |}.

(** The same, when a refused call has come in between, for which the
    database had drawn the identifier 2. *)
Definition later_record : LeadSource :=
  {| id := Some 3; user_id := 7; medium := "cpc"; source := "google";
     campaign := ""; term := ""; content := "";
     timestamp := 1004; ls_session_key := Some "abc"; created_at := 1005 |}.

Definition later_world : World :=
  {| db_rows := [cpc_record (Some "abc"); later_record]; db_next_id := 4;
     now := 1006; clock_reads := 6 |}.

(** Keyword arguments that leave [session_key] out, and the instance
    that the constructor builds from them in [empty_world]. *)
Definition kwargs_without_session_key : kwargs :=
  {| kw_user := 7; kw_medium := "cpc"; kw_source := "google";
     kw_campaign := ""; kw_term := ""; kw_content := "";
     kw_timestamp := None; kw_session_key := None; kw_created_at := None |}.

Definition unsaved_record : LeadSource :=
  {| id := None; user_id := 7; medium := "cpc"; source := "google";
     campaign := ""; term := ""; content := "";
     timestamp := 1000; ls_session_key := Some ""; created_at := 1001 |}.

(** The database after revision 0004. *)
Definition new_database : gmap string Migration_0004.table :=
  <["leadsource" := Migration_0004.with_session_key old_table]> old_database.

End Samples.

(** * Properties of the factory *)

Section FactoryProperties.

Variable elapse : nat → N.
Variable db_check : list LeadSource → LeadSource → option refusal.

Abbreviation factory := (create_from_utm_params elapse db_check).

Lemma getitem_Return (d : UtmParamsDict) k v :
  getitem d k = Return v ↔ d !! k = Some v.
Proof. unfold getitem. destruct (d !! k); split; congruence. Qed.

Lemma getitem_Raise (d : UtmParamsDict) k e :
  getitem d k = Raise e ↔ d !! k = None ∧ e = KeyError k.
Proof. unfold getitem. destruct (d !! k); split; intros; intuition congruence. Qed.

Lemma get_default (d : UtmParamsDict) k dflt :
  get d k dflt = default dflt (d !! k).
Proof. unfold get. by destruct (d !! k). Qed.

Lemma create_args_Return user session (p : UtmParamsDict) kw :
  create_args user session p = Return kw ↔
  ∃ m s, p !! "utm_medium" = Some m ∧ p !! "utm_source" = Some s ∧
    kw = {| kw_user := user; kw_medium := m; kw_source := s;
            kw_campaign := get p "utm_campaign" "";
            kw_term := get p "utm_term" "";
            kw_content := get p "utm_content" "";
            kw_timestamp := None;
            kw_session_key := Some (session_key session);
            kw_created_at := None |}.
Proof.
  unfold create_args, getitem. split.
  - destruct (p !! "utm_medium") as [m|]; [|discriminate].
    destruct (p !! "utm_source") as [s|]; [|discriminate].
    intros [= <-]. by exists m, s.
  - intros (m & s & -> & -> & ->). reflexivity.
Qed.

Lemma create_args_Raise user session (p : UtmParamsDict) e :
  create_args user session p = Raise e ↔
  (p !! "utm_medium" = None ∧ e = KeyError "utm_medium") ∨
  (is_Some (p !! "utm_medium") ∧ p !! "utm_source" = None ∧
   e = KeyError "utm_source").
Proof.
  unfold create_args, getitem. split.
  - destruct (p !! "utm_medium") as [m|].
    + destruct (p !! "utm_source") as [s|]; [discriminate|].
      intros [= <-]. right. eauto.
    + intros [= <-]. by left.
  - intros [[-> ->] | ([m ->] & -> & ->)]; reflexivity.
Qed.

(** [Model.__init__] on the factory's arguments reads the clock twice
    and cannot raise. *)
Lemma Model_init_factory kw sk w :
  kw_timestamp kw = None → kw_session_key kw = Some sk → kw_created_at kw = None →
  Model_init elapse kw w = (Return (built elapse kw sk w), after_init elapse w).
Proof.
  intros Hts Hsk Hca. unfold Model_init, bind. rewrite Hts, Hsk, Hca. reflexivity.
Qed.

Lemma objects_create_factory kw sk w :
  kw_timestamp kw = None → kw_session_key kw = Some sk → kw_created_at kw = None →
  objects_create elapse db_check kw w =
  match db_check (db_rows w) (built elapse kw sk w) with
  | Some rf => (Raise (raised rf), draw_id (id_drawn rf) (after_init elapse w))
  | None =>
      let r := set_id (db_next_id w) (built elapse kw sk w) in
      (Return r, after_save elapse r w)
  end.
Proof.
  intros Hts Hsk Hca. unfold objects_create, bind.
  rewrite (Model_init_factory kw sk w Hts Hsk Hca).
  unfold save. cbn [db_rows after_init]. by destruct db_check.
Qed.

Lemma factory_outcome user session p w :
  outcome elapse db_check user session p w (factory user session p w).1 (factory user session p w).2.
Proof.
  unfold create_from_utm_params, try_except_KeyError, bind, lift.
  destruct (create_args user session p) as [kw|e] eqn:Hargs.
  - pose proof Hargs as (m & s & _ & _ & Hkw)%create_args_Return.
    rewrite (objects_create_factory kw (session_key session) w) by (by subst kw).
    destruct (db_check _ _) as [rf|] eqn:Hdb.
    + pose proof (outcome_db_error elapse db_check user session p w kw rf Hargs Hdb) as H.
      by destruct (raised rf).
    + by apply (outcome_created elapse db_check).
  - pose proof Hargs as [[_ ->] | (_ & _ & ->)]%create_args_Raise;
      by apply (outcome_missing elapse db_check).
Qed.

Lemma factory_inv user session p w res w' :
  factory user session p w = (res, w') → outcome elapse db_check user session p w res w'.
Proof. intros H. pose proof (factory_outcome user session p w) as Ho. by rewrite H in Ho. Qed.

(** A successful call, spelled out. *)
Lemma factory_Return user session p w r w' :
  factory user session p w = (Return r, w') →
  ∃ kw, create_args user session p = Return kw ∧
    db_check (db_rows w) (built elapse kw (session_key session) w) = None ∧
    r = set_id (db_next_id w) (built elapse kw (session_key session) w) ∧
    w' = after_save elapse r w.
Proof.
  intros H%factory_inv. inversion H as [k Hk Hr | kw rf Hkw Hdb Hr | kw Hkw Hdb r0 Hr].
  - destruct (raised rf); discriminate.
  - exists kw. by subst.
Qed.

Lemma factory_missing user session p w k :
  create_args user session p = Raise (KeyError k) →
  factory user session p w =
  (Raise (ValueError ("Missing utm param: " +:+ repr k)), w).
Proof.
  intros H. unfold create_from_utm_params, try_except_KeyError, bind, lift.
  by rewrite H.
Qed.

Lemma draw_id_rows drawn w : db_rows (draw_id drawn w) = db_rows w.
Proof. by destruct drawn. Qed.

(** A call that raises leaves the rows of the table as they were. *)
Lemma factory_Raise user session p w e w' :
  factory user session p w = (Raise e, w') →
  db_rows w' = db_rows w.
Proof.
  intros H%factory_inv. inversion H as [k Hk Hr | kw rf Hkw Hdb Hr | kw Hkw Hdb r0 Hr];
    subst; [done|]. by rewrite draw_id_rows.
Qed.

(** The keyword arguments depend on [utm_params] through the five
    recognised keys only. *)
Lemma create_args_agree user session (p1 p2 : UtmParamsDict) :
  (∀ k, k ∈ utm_keys → p1 !! k = p2 !! k) →
  create_args user session p1 = create_args user session p2.
Proof.
  intros H. unfold create_args, getitem, get, utm_keys in *.
  rewrite !(H "utm_medium"), !(H "utm_source"), !(H "utm_campaign"),
    !(H "utm_term"), !(H "utm_content") by set_solver.
  reflexivity.
Qed.

(** C1: when [utm_params] lacks [utm_medium] or [utm_source], the call
    raises a [ValueError], which is not the [KeyError] of a failed
    lookup, and whose message names a missing key: [utm_medium] when it
    is missing, [utm_source] when only that one is.  Nothing is read
    from the clock or written to the table. *)
Theorem missing_required_key_raises_ValueError
    user session (utm_params : UtmParamsDict) w :
  utm_params !! "utm_medium" = None ∨ utm_params !! "utm_source" = None →
  ∃ k, (k = "utm_medium" ∨ k = "utm_source") ∧ utm_params !! k = None ∧
    (utm_params !! "utm_medium" = None → k = "utm_medium") ∧
    (is_Some (utm_params !! "utm_medium") → k = "utm_source") ∧
    create_from_utm_params elapse db_check user session utm_params w =
      (Raise (ValueError ("Missing utm param: '" +:+ k +:+ "'")), w) ∧
    is_KeyError (ValueError ("Missing utm param: '" +:+ k +:+ "'")) = false.
Proof.
  intros Hmiss.
  destruct (utm_params !! "utm_medium") as [m|] eqn:Hm.
  - destruct Hmiss as [|Hs]; [discriminate|].
    exists "utm_source". repeat split; eauto.
    + intros [=].
    + rewrite (factory_missing user session utm_params w "utm_source"); [done|].
      apply create_args_Raise. right. rewrite Hm. eauto.
  - exists "utm_medium". repeat split; eauto.
    + by intros [? [=]].
    + rewrite (factory_missing user session utm_params w "utm_medium"); [done|].
      apply create_args_Raise. left. eauto.
Qed.

(** C2, as amended: after a successful creation the keys [utm_medium]
    and [utm_source] are present in [utm_params] and the record's
    [medium] and [source] are their values, whatever these are; the two
    fields are non-empty exactly when the values given are. *)
Theorem created_medium_source_are_the_given_values
    user session (utm_params : UtmParamsDict) w r w' :
  create_from_utm_params elapse db_check user session utm_params w = (Return r, w') →
  utm_params !! "utm_medium" = Some (medium r) ∧
  utm_params !! "utm_source" = Some (source r) ∧
  (medium r ≠ "" ↔ utm_params !! "utm_medium" ≠ Some "") ∧
  (source r ≠ "" ↔ utm_params !! "utm_source" ≠ Some "").
Proof.
  intros (kw & (m & s & Hm & Hs & ->)%create_args_Return & _ & -> & _)%factory_Return.
  cbn. rewrite Hm, Hs. repeat split; congruence.
Qed.

(** C3, as amended: when [utm_medium] and [utm_source] are present and
    the database accepts the row, the call returns a record, and each of
    [campaign], [term] and [content] whose key is absent is the empty
    string. *)
Theorem absent_optional_keys_give_empty_strings
    user session (utm_params : UtmParamsDict) w m s :
  utm_params !! "utm_medium" = Some m →
  utm_params !! "utm_source" = Some s →
  (∀ kw, create_args user session utm_params = Return kw →
         db_check (db_rows w) (built elapse kw (session_key session) w) = None) →
  ∃ r w',
    create_from_utm_params elapse db_check user session utm_params w = (Return r, w') ∧
    (utm_params !! "utm_campaign" = None → campaign r = "") ∧
    (utm_params !! "utm_term" = None → term r = "") ∧
    (utm_params !! "utm_content" = None → content r = "").
Proof.
  intros Hm Hs Hdb.
  assert (∃ kw, create_args user session utm_params = Return kw) as [kw Hkw].
  { eexists. apply create_args_Return. eauto. }
  pose proof (factory_outcome user session utm_params w) as Ho.
  destruct (factory user session utm_params w) as [res w'] eqn:Hf. cbn in Ho.
  inversion Ho as [k Hk Hr | kw0 e Hkw0 Hdb0 Hr | kw0 Hkw0 Hdb0 r0 Hr].
  - congruence.
  - rewrite (Hdb kw0 Hkw0) in Hdb0. discriminate.
  - eexists _, _. split; [reflexivity|].
    apply create_args_Return in Hkw0 as (m0 & s0 & _ & _ & ->).
    subst r0. cbn. unfold get.
    repeat split; intros ->; reflexivity.
Qed.

(** C4: a successful call appends exactly one row to the table; its five
    attribution fields are the values of the five keys, the empty string
    standing for an absent optional key; [timestamp] and [created_at]
    lie between the time at the start of the call and the time at its
    end; and the record returned
    is that row, with the identifier the database assigned to it. *)
Theorem successful_call_persists_the_returned_record
    user session (utm_params : UtmParamsDict) w r w' :
  create_from_utm_params elapse db_check user session utm_params w = (Return r, w') →
  db_rows w' = (db_rows w ++ [r])%list ∧
  id r = Some (db_next_id w) ∧
  user_id r = user ∧
  utm_params !! "utm_medium" = Some (medium r) ∧
  utm_params !! "utm_source" = Some (source r) ∧
  campaign r = default "" (utm_params !! "utm_campaign") ∧
  term r = default "" (utm_params !! "utm_term") ∧
  content r = default "" (utm_params !! "utm_content") ∧
  (now w ≤ timestamp r ≤ now w')%Z ∧
  (now w ≤ created_at r ≤ now w')%Z.
Proof.
  intros (kw & (m & s & Hm & Hs & ->)%create_args_Return & _ & -> & ->)%factory_Return.
  cbn. rewrite Hm, Hs, !get_default.
  repeat split; try reflexivity; lia.
Qed.

(** C5: after a successful call the record's [session_key] is the
    identifier that the session had at the call, also when that
    identifier is the empty string. *)
Theorem created_session_key_is_the_session_identifier
    user session (utm_params : UtmParamsDict) w r w' sid :
  session_key session = Some sid →
  create_from_utm_params elapse db_check user session utm_params w = (Return r, w') →
  ls_session_key r = Some sid ∧ (sid = "" → ls_session_key r = Some "").
Proof.
  intros Hsid
    (kw & (m & s & Hm & Hs & ->)%create_args_Return & _ & -> & _)%factory_Return.
  cbn. rewrite Hsid. split; [done|]. by intros ->.
Qed.

(** X15: when the persistence operation raises an exception that is not
    a [KeyError], the call raises that same exception, in the world in
    which the persistence operation left it. *)
Theorem persistence_failure_other_than_KeyError_propagates
    user session (utm_params : UtmParamsDict) kw w e w1 :
  create_args user session utm_params = Return kw →
  objects_create elapse db_check kw w = (Raise e, w1) →
  is_KeyError e = false →
  create_from_utm_params elapse db_check user session utm_params w = (Raise e, w1).
Proof.
  intros Hkw Hcreate Hne.
  unfold create_from_utm_params, try_except_KeyError, bind, lift.
  rewrite Hkw, Hcreate. by destruct e.
Qed.

(** C7: a call that fails, for a missing key or in the database, leaves
    the rows of the table of lead sources as they were: no record, whole
    or partial, is persisted. *)
Theorem failed_call_persists_nothing
    user session (utm_params : UtmParamsDict) w e w' :
  create_from_utm_params elapse db_check user session utm_params w = (Raise e, w') →
  db_rows w' = db_rows w.
Proof. apply factory_Raise. Qed.

(** C9, as amended: when the session has no identifier ([None]), the
    factory passes [None] for [session_key] and not the default: with
    both required keys present, the row that reaches the database has
    [session_key] [None].  A database that enforces the non-null column
    refuses that row, so the call raises and no record is created; what
    it raises is what the database raised for the row (a [KeyError]
    rewritten, as always). *)
Theorem null_session_identifier_creates_no_record
    user session (utm_params : UtmParamsDict) w :
  session_key session = None →
  (∀ rows obj, ls_session_key obj = None → is_Some (db_check rows obj)) →
  ∃ e w',
    create_from_utm_params elapse db_check user session utm_params w = (Raise e, w') ∧
    db_rows w' = db_rows w ∧
    (is_Some (utm_params !! "utm_medium") →
     is_Some (utm_params !! "utm_source") →
     ∃ kw rf,
       create_args user session utm_params = Return kw ∧
       kw_session_key kw = Some None ∧
       ls_session_key (built elapse kw (session_key session) w) = None ∧
       db_check (db_rows w) (built elapse kw (session_key session) w) = Some rf ∧
       e = match raised rf with
           | KeyError k => ValueError ("Missing utm param: " +:+ repr k)
           | x => x
           end).
Proof.
  intros Hnone Hnotnull.
  pose proof (factory_outcome user session utm_params w) as Ho.
  destruct (factory user session utm_params w) as [res w'] eqn:Hf. cbn in Ho.
  inversion Ho as [k Hk Hr | kw rf Hkw Hdb Hr | kw Hkw Hdb r0 Hr]; subst.
  - eexists _, _. split; [reflexivity|]. split; [done|].
    intros [m Hm] [s Hs].
    apply create_args_Raise in Hk as [[Hk _] | (_ & Hk & _)]; congruence.
  - exists (match raised rf with
            | KeyError k => ValueError ("Missing utm param: " +:+ repr k)
            | x => x
            end), (draw_id (id_drawn rf) (after_init elapse w)).
    split; [by destruct (raised rf)|]. split; [by rewrite draw_id_rows|].
    intros _ _. exists kw, rf.
    pose proof Hkw as (m & s & _ & _ & ->)%create_args_Return.
    cbn [kw_session_key]. rewrite Hnone in *. done.
  - destruct (Hnotnull (db_rows w) (built elapse kw (session_key session) w))
      as [rf Hrf]; [by rewrite Hnone|]. congruence.
Qed.

(** C10: two calls for the same user and session whose [utm_params]
    agree on the five recognised keys behave alike: from the same world
    they end in the same way, and from any two worlds the records they
    create have the same attribution fields and the same [session_key]. *)
Theorem unrecognised_keys_do_not_interfere
    user session (p1 p2 : UtmParamsDict) :
  (∀ k, k ∈ utm_keys → p1 !! k = p2 !! k) →
  (∀ w, create_from_utm_params elapse db_check user session p1 w =
        create_from_utm_params elapse db_check user session p2 w) ∧
  (∀ w1 w2 r1 r2 w1' w2',
     create_from_utm_params elapse db_check user session p1 w1 = (Return r1, w1') →
     create_from_utm_params elapse db_check user session p2 w2 = (Return r2, w2') →
     medium r1 = medium r2 ∧ source r1 = source r2 ∧
     campaign r1 = campaign r2 ∧ term r1 = term r2 ∧ content r1 = content r2 ∧
     ls_session_key r1 = ls_session_key r2).
Proof.
  intros Hagree. pose proof (create_args_agree user session p1 p2 Hagree) as Hargs.
  split.
  - intros w. unfold create_from_utm_params. by rewrite Hargs.
  - intros w1 w2 r1 r2 w1' w2'
      (kw1 & Hkw1 & _ & -> & _)%factory_Return
      (kw2 & Hkw2 & _ & -> & _)%factory_Return.
    assert (kw1 = kw2) as -> by congruence.
    by cbn.
Qed.

End FactoryProperties.

(** * Properties of revision 0004 *)

Section MigrationProperties.

Import Migration_0004.

Lemma add_field_session_key (t : table) :
  "session_key" ∉ columns t →
  add_field t "session_key"
    {| blank := true; default := Some "";
       help_text := "The session in which the params were captured.";
       max_length := 40; null := false |} =
  Some {| columns := columns t ++ ["session_key"];
          rows := (λ r, <["session_key" := VStr ""]> r) <$> rows t |}.
Proof.
  intros Hfresh. unfold add_field.
  rewrite bool_decide_eq_false_2 by done. reflexivity.
Qed.

(** C8: applying revision 0004 to a database whose [leadsource] table
    has no [session_key] column succeeds; it keeps every row in its
    place, and every row that was there reads back with [session_key]
    equal to the empty string and with its other columns unchanged. *)
Theorem session_key_is_backfilled_with_the_empty_string
    (db : gmap string table) (t : table) :
  db !! "leadsource" = Some t →
  "session_key" ∉ columns t →
  ∃ t', apply_migration Migration db = Some (<["leadsource" := t']> db) ∧
    columns t' = (columns t ++ ["session_key"])%list ∧
    length (rows t') = length (rows t) ∧
    ∀ (i : nat) (r : gmap string value), rows t !! i = Some r →
      ∃ r', rows t' !! i = Some r' ∧
        read_back r' "session_key" = Some (VStr "") ∧
        ∀ c, c ≠ "session_key" → read_back r' c = read_back r c.
Proof.
  intros Ht Hfresh.
  eexists. split; [|split; [|split]].
  - unfold apply_migration, Migration. cbn [operations apply_operations apply_operation].
    rewrite Ht, (add_field_session_key t Hfresh). reflexivity.
  - reflexivity.
  - cbn [rows]. by rewrite length_fmap.
  - intros i r Hr. cbn [rows]. rewrite list_lookup_fmap, Hr. cbn.
    eexists. split; [reflexivity|]. unfold read_back. split.
    + apply lookup_insert_eq.
    + intros c Hc. by apply lookup_insert_ne.
Qed.

End MigrationProperties.

(** * The properties at work on sample calls *)

Section Runs.

Import Samples.

(** C1 on [{"utm_source": "google"}]: the error names [utm_medium]. *)
Lemma missing_utm_medium_run :
  params_no_medium !! "utm_medium" = None ∧
  create_from_utm_params one_tick strict_check 7 session_abc params_no_medium
    empty_world =
  (Raise (ValueError "Missing utm param: 'utm_medium'"), empty_world).
Proof.
  assert (Hm : params_no_medium !! "utm_medium" = None) by (vm_compute; reflexivity).
  split; [exact Hm|].
  destruct (missing_required_key_raises_ValueError one_tick strict_check 7
              session_abc params_no_medium empty_world (or_introl Hm))
    as (k & _ & _ & Hk & _ & Hcall & _).
  rewrite (Hk Hm) in Hcall. exact Hcall.
Defined.

(** C2, the claim as it was stated, fails on
    [{"utm_medium": "", "utm_source": "google"}]: the key is present, so
    the call succeeds, and the record's [medium] is the empty string. *)
Lemma empty_medium_is_persisted :
  create_from_utm_params one_tick strict_check 7 session_abc params_empty_medium
    empty_world =
  (Return empty_medium_record,
   {| db_rows := [empty_medium_record]; db_next_id := 2; now := 1002;
      clock_reads := 2 |}) ∧
  medium empty_medium_record = "" ∧
  ¬ (medium empty_medium_record ≠ "" ∧ source empty_medium_record ≠ "").
Proof.
  split; [vm_compute; reflexivity|]. split; [reflexivity|].
  intros [Hm _]. by apply Hm.
Qed.

Lemma created_medium_source_run :
  create_from_utm_params one_tick strict_check 7 session_abc params_cpc empty_world =
  (Return (cpc_record (Some "abc")), cpc_world (Some "abc")) ∧
  params_cpc !! "utm_medium" = Some "cpc" ∧
  params_cpc !! "utm_source" = Some "google".
Proof.
  assert (Hcall : create_from_utm_params one_tick strict_check 7 session_abc
                    params_cpc empty_world =
                  (Return (cpc_record (Some "abc")), cpc_world (Some "abc")))
    by (vm_compute; reflexivity).
  split; [exact Hcall|].
  destruct (created_medium_source_are_the_given_values one_tick strict_check 7
              session_abc params_cpc empty_world _ _ Hcall) as (Hm & Hs & _).
  split; [exact Hm | exact Hs].
Defined.

(** C3, the claim as it was stated, fails when the database refuses the
    row: both required keys are present and the optional ones absent,
    but [utm_medium] is longer than the 30 characters of the column, and
    a backend that enforces the length raises. *)
Lemma overlong_medium_is_refused :
  is_Some (params_long_medium !! "utm_medium") ∧
  is_Some (params_long_medium !! "utm_source") ∧
  params_long_medium !! "utm_campaign" = None ∧
  params_long_medium !! "utm_term" = None ∧
  params_long_medium !! "utm_content" = None ∧
  create_from_utm_params one_tick strict_check 7 session_abc params_long_medium
    empty_world =
  (Raise (OtherError "DataError" "value too long"), skipped_world).
Proof.
  repeat split; try (vm_compute; reflexivity); vm_compute; eauto.
Qed.

Lemma absent_optional_keys_run :
  ∃ r w',
    create_from_utm_params one_tick strict_check 7 session_abc params_cpc
      empty_world = (Return r, w') ∧
    campaign r = "" ∧ term r = "" ∧ content r = "".
Proof.
  destruct (absent_optional_keys_give_empty_strings one_tick strict_check 7
              session_abc params_cpc empty_world "cpc" "google")
    as (r & w' & Hcall & Hc & Ht & Hco).
  - vm_compute; reflexivity.
  - vm_compute; reflexivity.
  - intros kw Hkw.
    assert (Hc : create_args 7 session_abc params_cpc = Return cpc_kwargs)
      by (vm_compute; reflexivity).
    rewrite Hc in Hkw. injection Hkw as <-. vm_compute; reflexivity.
  - exists r, w'. split; [exact Hcall|].
    split; [apply Hc | split; [apply Ht | apply Hco]]; vm_compute; reflexivity.
Defined.

Lemma successful_call_run :
  db_rows (cpc_world (Some "abc")) = [cpc_record (Some "abc")] ∧
  id (cpc_record (Some "abc")) = Some 1 ∧
  (1000 ≤ timestamp (cpc_record (Some "abc")) ≤ 1002)%Z ∧
  (1000 ≤ created_at (cpc_record (Some "abc")) ≤ 1002)%Z.
Proof.
  assert (Hcall : create_from_utm_params one_tick strict_check 7 session_abc
                    params_cpc empty_world =
                  (Return (cpc_record (Some "abc")), cpc_world (Some "abc")))
    by (vm_compute; reflexivity).
  destruct (successful_call_persists_the_returned_record one_tick strict_check 7
              session_abc params_cpc empty_world _ _ Hcall)
    as (Hrows & Hid & _ & _ & _ & _ & _ & _ & Hts & Hca).
  split; [exact Hrows|]. split; [exact Hid|]. split; [exact Hts | exact Hca].
Defined.

(** C5 on a session whose identifier is the empty string. *)
Lemma empty_session_identifier_run :
  session_key session_empty = Some "" ∧
  ls_session_key (cpc_record (Some "")) = Some "".
Proof.
  assert (Hcall : create_from_utm_params one_tick strict_check 7 session_empty
                    params_cpc empty_world =
                  (Return (cpc_record (Some "")), cpc_world (Some "")))
    by (vm_compute; reflexivity).
  split; [reflexivity|].
  exact (proj1 (created_session_key_is_the_session_identifier one_tick strict_check
                  7 session_empty params_cpc empty_world _ _ "" eq_refl Hcall)).
Defined.

(** C6 does not hold of the code when the persistence operation raises a
    [KeyError]: both required keys are present, [create] raises
    [KeyError('pk')], and because the [try] block encloses the call to
    [create] the handler meant for the two lookups catches it and raises
    a [ValueError] in its place, which reports a missing utm parameter. *)
Lemma persistence_KeyError_is_rewritten :
  create_args 7 session_abc params_cpc = Return cpc_kwargs ∧
  objects_create one_tick key_error_check cpc_kwargs empty_world =
    (Raise (KeyError "pk"), refused_world) ∧
  create_from_utm_params one_tick key_error_check 7 session_abc params_cpc
    empty_world =
    (Raise (ValueError "Missing utm param: 'pk'"), refused_world) ∧
  ValueError "Missing utm param: 'pk'" ≠ KeyError "pk".
Proof.
  repeat split; try (vm_compute; reflexivity). discriminate.
Qed.

Lemma persistence_failure_run :
  create_from_utm_params one_tick strict_check 7 session_none params_cpc
    empty_world =
  (Raise (OtherError "IntegrityError" "null value in column session_key"),
   skipped_world).
Proof.
  apply (persistence_failure_other_than_KeyError_propagates one_tick strict_check 7
           session_none params_cpc
           {| kw_user := 7; kw_medium := "cpc"; kw_source := "google";
              kw_campaign := ""; kw_term := ""; kw_content := "";
              kw_timestamp := None; kw_session_key := Some None;
              kw_created_at := None |}).
  - vm_compute; reflexivity.
  - vm_compute; reflexivity.
  - reflexivity.
Defined.

Lemma failed_call_run :
  db_rows skipped_world = db_rows empty_world.
Proof.
  assert (Hcall : create_from_utm_params one_tick strict_check 7 session_abc
                    params_long_medium empty_world =
                  (Raise (OtherError "DataError" "value too long"), skipped_world))
    by (vm_compute; reflexivity).
  exact (failed_call_persists_nothing one_tick strict_check 7 session_abc
           params_long_medium empty_world _ _ Hcall).
Defined.

Lemma backfill_run :
  ∃ t', Migration_0004.apply_migration Migration_0004.Migration old_database =
          Some (<["leadsource" := t']> old_database) ∧
    ∃ r', Migration_0004.rows t' !! 0%nat = Some r' ∧
      Migration_0004.read_back r' "session_key" = Some (Migration_0004.VStr "") ∧
      Migration_0004.read_back r' "medium" = Some (Migration_0004.VStr "cpc").
Proof.
  destruct (session_key_is_backfilled_with_the_empty_string old_database old_table)
    as (t' & Happly & _ & _ & Hrows).
  - vm_compute; reflexivity.
  - vm_compute. intros H. repeat (inversion H as [|? ? ? H']; clear H; rename H' into H).
  - exists t'. split; [exact Happly|].
    destruct (Hrows 0%nat old_row eq_refl) as (r' & Hr' & Hsk & Hother).
    exists r'. split; [exact Hr'|]. split; [exact Hsk|].
    rewrite (Hother "medium") by discriminate. vm_compute; reflexivity.
Defined.

(** C9, the claim as it was stated, fails on a session without an
    identifier: the row that the factory builds has [session_key]
    [None], the database refuses it for the non-null column, and no
    record is created. *)
Lemma null_session_identifier_is_refused :
  session_key session_none = None ∧
  create_from_utm_params one_tick strict_check 7 session_none params_cpc
    empty_world =
  (Raise (OtherError "IntegrityError" "null value in column session_key"),
   skipped_world) ∧
  db_rows skipped_world = [] ∧
  ¬ ∃ r w', create_from_utm_params one_tick strict_check 7 session_none params_cpc
              empty_world = (Return r, w').
Proof.
  assert (Hcall : create_from_utm_params one_tick strict_check 7 session_none
                    params_cpc empty_world =
                  (Raise (OtherError "IntegrityError"
                            "null value in column session_key"), skipped_world))
    by (vm_compute; reflexivity).
  split; [reflexivity|]. split; [exact Hcall|]. split; [reflexivity|].
  intros (r & w' & Hret). rewrite Hcall in Hret. discriminate.
Qed.

Lemma strict_check_refuses_null rows obj :
  ls_session_key obj = None → is_Some (strict_check rows obj).
Proof.
  intros Hnone. unfold strict_check. rewrite Hnone.
  destruct (_ || _); eauto.
Defined.

Lemma null_session_identifier_run :
  ∃ e w',
    create_from_utm_params one_tick strict_check 7 session_none params_cpc
      empty_world = (Raise e, w') ∧
    db_rows w' = db_rows empty_world.
Proof.
  destruct (null_session_identifier_creates_no_record one_tick strict_check 7
              session_none params_cpc empty_world eq_refl strict_check_refuses_null)
    as (e & w' & Hcall & Hrows & _).
  exists e, w'. split; [exact Hcall | exact Hrows].
Defined.

(** C10 on two mappings that differ in the key [gclid] only. *)
Lemma unrecognised_key_run :
  create_from_utm_params one_tick strict_check 7 session_abc params_cpc empty_world =
  create_from_utm_params one_tick strict_check 7 session_abc params_extra empty_world.
Proof.
  refine (proj1 (unrecognised_keys_do_not_interfere one_tick strict_check 7
                   session_abc params_cpc params_extra _) empty_world).
  intros k Hk. unfold utm_keys in Hk.
  repeat (apply elem_of_cons in Hk as [-> | Hk]; [vm_compute; reflexivity|]).
  by apply elem_of_nil in Hk.
Defined.

End Runs.

(** * Further properties of the factory *)

Section MoreFactoryProperties.

Variable elapse : nat → N.
Variable db_check : list LeadSource → LeadSource → option refusal.

Abbreviation factory' := (create_from_utm_params elapse db_check).

(** What a call does to the table and to the clock, whatever its
    result. *)
Lemma factory_effect user session p w res w' :
  factory' user session p w = (res, w') →
  db_rows w' = (db_rows w ++ returned [res])%list ∧
  (now w ≤ now w')%Z ∧
  (db_next_id w ≤ db_next_id w')%Z.
Proof.
  intros H%factory_inv.
  inversion H as [k Hk Hr | kw rf Hkw Hdb Hr | kw Hkw Hdb r0 Hr]; subst.
  - cbn. rewrite app_nil_r. repeat split; lia.
  - destruct (raised rf), (id_drawn rf); cbn; rewrite app_nil_r; repeat split; lia.
  - cbn. repeat split; lia.
Qed.

Lemma created_dates user session p w r w' :
  factory' user session p w = (Return r, w') →
  timestamp r = now w ∧ (timestamp r ≤ created_at r)%Z ∧ (created_at r ≤ now w')%Z ∧
  id r = Some (db_next_id w) ∧ db_next_id w' = (db_next_id w + 1)%Z.
Proof.
  intros (kw & _ & _ & -> & ->)%factory_Return. cbn. repeat split; lia.
Qed.

(** X1: a call never raises [KeyError], whatever the mapping holds and
    whatever the database raises. *)
Theorem factory_never_raises_KeyError
    user session (utm_params : UtmParamsDict) w e w' :
  create_from_utm_params elapse db_check user session utm_params w = (Raise e, w') →
  is_KeyError e = false.
Proof.
  intros H%factory_inv.
  inversion H as [k Hk Hr | kw rf Hkw Hdb Hr | kw Hkw Hdb r0 Hr]; subst.
  - reflexivity.
  - destruct (raised rf); injection Hr as <-; reflexivity.
Qed.

(** X2: a call returns a record exactly when [utm_medium] and
    [utm_source] are both present and the database accepts the row built
    from the arguments; nothing else can make it fail. *)
Theorem factory_succeeds_iff
    user session (utm_params : UtmParamsDict) w :
  (∃ r w', create_from_utm_params elapse db_check user session utm_params w =
             (Return r, w')) ↔
  is_Some (utm_params !! "utm_medium") ∧
  is_Some (utm_params !! "utm_source") ∧
  (∀ kw, create_args user session utm_params = Return kw →
         db_check (db_rows w) (built elapse kw (session_key session) w) = None).
Proof.
  split.
  - intros (r & w' & (kw & Hkw & Hdb & _)%factory_Return).
    pose proof Hkw as (m & s & Hm & Hs & _)%create_args_Return.
    rewrite Hm, Hs. repeat split; eauto.
    intros kw' Hkw'. by assert (kw' = kw) as -> by congruence.
  - intros ([m Hm] & [s Hs] & Hdb).
    assert (∃ kw, create_args user session utm_params = Return kw) as [kw Hkw].
    { eexists. apply create_args_Return. eauto. }
    pose proof (factory_outcome elapse db_check user session utm_params w) as Ho.
    destruct (factory' user session utm_params w) as [res w'] eqn:Hf. cbn in Ho.
    inversion Ho as [k Hk Hr | kw0 e Hkw0 Hdb0 Hr | kw0 Hkw0 Hdb0 r0 Hr].
    + congruence.
    + rewrite (Hdb kw0 Hkw0) in Hdb0. discriminate.
    + eauto.
Qed.

(** X3: an optional key whose value is the empty string is the same as
    an absent key: removing it from the mapping changes nothing in what
    the call returns or does. *)
Theorem empty_optional_value_may_be_left_out
    user session (utm_params : UtmParamsDict) k w :
  k ∈ ["utm_campaign"; "utm_term"; "utm_content"] →
  utm_params !! k = Some "" →
  create_from_utm_params elapse db_check user session (delete k utm_params) w =
  create_from_utm_params elapse db_check user session utm_params w.
Proof.
  intros Hk Hempty.
  assert (create_args user session (delete k utm_params) =
          create_args user session utm_params) as Hargs.
  { unfold create_args, getitem, get.
    repeat (apply elem_of_cons in Hk as [-> | Hk]);
      [| | |by apply elem_of_nil in Hk];
      rewrite ?lookup_delete_eq, ?lookup_delete_ne, ?Hempty by done; reflexivity. }
  unfold create_from_utm_params. by rewrite Hargs.
Qed.

(** X4: the dates of the records follow the order of the calls.  A
    record's [timestamp] is not after its [created_at], and when a
    second record is created later, after any number of calls in
    between, its [timestamp] is not before the [created_at] of the
    first. *)
Theorem dates_follow_the_order_of_calls
    u1 s1 (p1 : UtmParamsDict) u2 s2 (p2 : UtmParamsDict) cs w w1 w2 r1 r2 w3 :
  create_from_utm_params elapse db_check u1 s1 p1 w = (Return r1, w1) →
  (run_calls elapse db_check cs w1).2 = w2 →
  create_from_utm_params elapse db_check u2 s2 p2 w2 = (Return r2, w3) →
  (timestamp r1 ≤ created_at r1)%Z ∧
  (created_at r1 ≤ timestamp r2)%Z ∧
  (timestamp r2 ≤ created_at r2)%Z.
Proof.
  intros H1 Hrun H2.
  apply created_dates in H1 as (_ & Hle1 & Hnow1 & _).
  apply created_dates in H2 as (Hts2 & Hle2 & _).
  assert (now w1 ≤ now w2)%Z as Hmono.
  { subst w2. clear. revert w1. induction cs as [|c cs IH]; intros w1; [cbn; lia|].
    cbn. destruct (create_from_utm_params _ _ _ _ _ w1) as [res wa] eqn:Hc.
    apply factory_effect in Hc as (_ & Hnow & _).
    specialize (IH wa). destruct (run_calls _ _ cs wa) as [rs wb]. cbn in *. lia. }
  lia.
Qed.

Lemma run_calls_rows (cs : list call) w :
  db_rows (run_calls elapse db_check cs w).2 =
    (db_rows w ++ returned (run_calls elapse db_check cs w).1)%list ∧
  length (run_calls elapse db_check cs w).1 = length cs.
Proof.
  revert w. induction cs as [|c cs IH]; intros w.
  - cbn. by rewrite app_nil_r.
  - cbn. destruct (create_from_utm_params _ _ _ _ _ w) as [res wa] eqn:Hc.
    apply factory_effect in Hc as (Hrows & _).
    destruct (IH wa) as [IHrows IHlen].
    destruct (run_calls _ _ cs wa) as [rs wb]. cbn in *.
    rewrite IHrows, Hrows, IHlen. split; [|done].
    rewrite <- app_assoc. f_equal. by destruct res.
Qed.

(** X5: a series of calls only appends to the table: afterwards the
    table is the table from before, unchanged, followed by exactly the
    records that the calls returned, in the order of the calls; there is
    one result per call. *)
Theorem calls_append_the_returned_records (cs : list call) w :
  db_rows (run_calls elapse db_check cs w).2 =
    (db_rows w ++ returned (run_calls elapse db_check cs w).1)%list ∧
  length (run_calls elapse db_check cs w).1 = length cs.
Proof. apply run_calls_rows. Qed.

Lemma factory_identifiers_ok user session p w res w' :
  factory' user session p w = (res, w') →
  identifiers_ok w → identifiers_ok w'.
Proof.
  intros Hcall [Hbelow Hnodup].
  destruct res as [r|e].
  - pose proof (created_dates _ _ _ _ _ _ Hcall) as (_ & _ & _ & Hid & Hnext).
    apply factory_effect in Hcall as (Hrows & _). cbn in Hrows.
    split.
    + intros r' Hr'. rewrite Hrows in Hr'.
      apply elem_of_app in Hr' as [Hold | ->%list_elem_of_singleton].
      * destruct (Hbelow r' Hold) as (i & Hi & Hlt). exists i. split; [done|lia].
      * exists (db_next_id w). split; [done|lia].
    + rewrite Hrows, fmap_app. apply NoDup_app. split; [done|]. split.
      * intros x Hx [= ->]%list_elem_of_singleton.
        apply list_elem_of_fmap in Hx as (r' & Hr'id & Hr').
        destruct (Hbelow r' Hr') as (i & Hi & Hlt).
        assert (db_next_id w = i) by congruence. lia.
      * apply NoDup_singleton.
  - apply factory_effect in Hcall as Heff. destruct Heff as (Hrows & _ & Hnext).
    cbn in Hrows. rewrite app_nil_r in Hrows. split.
    + intros r' Hr'. rewrite Hrows in Hr'.
      destruct (Hbelow r' Hr') as (i & Hi & Hlt). exists i. split; [done|lia].
    + by rewrite Hrows.
Qed.

(** X6: identifiers are never reused.  If the identifiers in the table
    are distinct and below the next one to be assigned, this is still so
    after any series of calls; the records that the calls return have
    pairwise distinct identifiers, none of which was in the table
    before. *)
Theorem identifiers_stay_distinct (cs : list call) w :
  identifiers_ok w →
  identifiers_ok (run_calls elapse db_check cs w).2 ∧
  NoDup (id <$> returned (run_calls elapse db_check cs w).1) ∧
  ∀ r r0, r ∈ returned (run_calls elapse db_check cs w).1 →
          r0 ∈ db_rows w → id r ≠ id r0.
Proof.
  intros Hok.
  assert (identifiers_ok (run_calls elapse db_check cs w).2) as Hok'.
  { revert w Hok. induction cs as [|c cs IH]; intros w Hok; [done|].
    cbn. destruct (create_from_utm_params _ _ _ _ _ w) as [res wa] eqn:Hc.
    apply factory_identifiers_ok in Hc; [|done].
    specialize (IH wa Hc). by destruct (run_calls _ _ cs wa). }
  split; [done|].
  destruct Hok' as [_ Hnodup].
  rewrite (proj1 (run_calls_rows cs w)), fmap_app in Hnodup.
  apply NoDup_app in Hnodup as (_ & Hdisj & Hnew).
  split; [done|].
  intros r r0 Hr Hr0 Heq.
  apply (Hdisj (id r0)).
  - apply list_elem_of_fmap. eauto.
  - rewrite <- Heq. apply list_elem_of_fmap. eauto.
Qed.

(** X7: the factory does not look for an earlier record of the same
    user: the same call made a second time creates a second row, with
    the same user, attribution fields and [session_key] and another
    identifier. *)
Theorem repeated_call_creates_a_second_record
    user session (utm_params : UtmParamsDict) w r1 w1 r2 w2 :
  create_from_utm_params elapse db_check user session utm_params w = (Return r1, w1) →
  create_from_utm_params elapse db_check user session utm_params w1 = (Return r2, w2) →
  db_rows w2 = (db_rows w ++ [r1; r2])%list ∧
  id r2 ≠ id r1 ∧
  user_id r2 = user_id r1 ∧ medium r2 = medium r1 ∧ source r2 = source r1 ∧
  campaign r2 = campaign r1 ∧ term r2 = term r1 ∧ content r2 = content r1 ∧
  ls_session_key r2 = ls_session_key r1.
Proof.
  intros (kw1 & Hkw1 & _ & -> & ->)%factory_Return
         (kw2 & Hkw2 & _ & -> & ->)%factory_Return.
  assert (kw2 = kw1) as -> by congruence. cbn.
  rewrite <- app_assoc. repeat split; try reflexivity.
  intros [=]. lia.
Qed.

Lemma later_cases a b :
  (later a b = a ∨ later a b = b) ∧
  (timestamp a ≤ timestamp (later a b))%Z ∧ (timestamp b ≤ timestamp (later a b))%Z.
Proof.
  unfold later. destruct (Z.ltb_spec (timestamp a) (timestamp b)); repeat split; eauto; lia.
Qed.

Lemma foldl_later_greatest rs r :
  foldl later r rs ∈ r :: rs ∧
  ∀ x, x ∈ r :: rs → (timestamp x ≤ timestamp (foldl later r rs))%Z.
Proof.
  revert r. induction rs as [|a rs IH]; intros r.
  - cbn. split; [by left|]. intros x ->%list_elem_of_singleton. lia.
  - cbn. destruct (IH (later r a)) as [Hin Hmax].
    destruct (later_cases r a) as (Hcase & Hr & Ha).
    split.
    + apply elem_of_cons in Hin as [-> | Hin].
      * destruct Hcase as [-> | ->]; [by left | right; by left].
      * right. by right.
    + intros x Hx. apply elem_of_cons in Hx as [-> | Hx].
      * etrans; [exact Hr|]. apply Hmax. by left.
      * apply elem_of_cons in Hx as [-> | Hx].
        -- etrans; [exact Ha|]. apply Hmax. by left.
        -- apply Hmax. by right.
Qed.

(** X8: when no row of the table is dated after the present time, this
    is still so after a call that creates a record, and [latest()], which
    goes by [timestamp], then finds a row with the [timestamp] of the new
    record: no row of the table is more recent than the record just
    created. *)
Theorem created_record_is_latest
    user session (utm_params : UtmParamsDict) w r w' :
  dated_in_the_past w →
  create_from_utm_params elapse db_check user session utm_params w = (Return r, w') →
  dated_in_the_past w' ∧
  ∃ l, latest w' = Return l ∧ l ∈ db_rows w' ∧
       timestamp l = timestamp r ∧
       ∀ r', r' ∈ db_rows w' → (timestamp r' ≤ timestamp r)%Z.
Proof.
  intros Hpast Hcall.
  pose proof (created_dates _ _ _ _ _ _ Hcall) as (Hts & Hle & Hca & _).
  pose proof (factory_effect _ _ _ _ _ _ Hcall) as (Hrows & Hnow & _). cbn in Hrows.
  assert (∀ r', r' ∈ db_rows w' → (timestamp r' ≤ timestamp r)%Z) as Hmax.
  { intros r' Hr'. rewrite Hrows in Hr'.
    apply elem_of_app in Hr' as [Hold | ->%list_elem_of_singleton]; [|lia].
    destruct (Hpast r' Hold). lia. }
  split.
  - intros r' Hr'. rewrite Hrows in Hr'.
    apply elem_of_app in Hr' as [Hold | ->%list_elem_of_singleton].
    + destruct (Hpast r' Hold). lia.
    + lia.
  - unfold latest. destruct (db_rows w') as [|r0 rs] eqn:Hw'.
    + by destruct (db_rows w).
    + destruct (foldl_later_greatest rs r0) as [Hin Hgreatest].
      eexists. split; [reflexivity|]. split; [done|]. split; [|done].
      apply Z.le_antisymm; [by apply Hmax|].
      apply Hgreatest. rewrite Hrows. apply elem_of_app. right. by left.
Qed.

End MoreFactoryProperties.

(** * Properties of the printing methods *)

Section PrintingProperties.

Lemma append_cons x (a b : string) : String x a +:+ b = String x (a +:+ b).
Proof. reflexivity. Qed.

Lemma append_empty (b : string) : "" +:+ b = b.
Proof. reflexivity. Qed.

Ltac push_append := rewrite ?append_cons, ?append_empty.
Ltac push_append_in H := rewrite ?append_cons, ?append_empty in H.

Lemma append_assoc (a b c : string) : (a +:+ b) +:+ c = a +:+ (b +:+ c).
Proof. induction a as [|x a IH]; push_append; [done|]. by rewrite IH. Qed.

Lemma length_append (a b : string) :
  String.length (a +:+ b) = (String.length a + String.length b)%nat.
Proof. induction a as [|x a IH]; push_append; cbn; [done|]. by rewrite IH. Qed.

Lemma append_cancel_r (a b t : string) : a +:+ t = b +:+ t → a = b.
Proof.
  revert b. induction a as [|x a IH]; intros [|y b] H; push_append_in H.
  - done.
  - apply (f_equal String.length) in H. cbn in H. rewrite length_append in H. lia.
  - apply (f_equal String.length) in H. cbn in H. rewrite length_append in H. lia.
  - injection H as <- H. f_equal. by apply IH.
Qed.

Lemma contains_cons c x s :
  contains c (String x s) = false ↔ x ≠ c ∧ contains c s = false.
Proof.
  cbn. unfold ascii_eqb. rewrite orb_false_iff, bool_decide_eq_false. done.
Qed.

(** A text is cut in one way only at the first occurrence of a
    character. *)
Lemma append_split_at c a b x y :
  contains c a = false → contains c b = false →
  a +:+ String c x = b +:+ String c y → a = b ∧ x = y.
Proof.
  revert b. induction a as [|a0 a IH]; intros [|b0 b] Ha Hb H; push_append_in H.
  - by injection H as ->.
  - injection H as -> _. apply contains_cons in Hb as [Hb _]. done.
  - injection H as -> _. apply contains_cons in Ha as [Ha _]. done.
  - injection H as <- H.
    apply contains_cons in Ha as [_ Ha]. apply contains_cons in Hb as [_ Hb].
    destruct (IH b Ha Hb H) as [-> ->]. done.
Qed.

Lemma str_int_inj z1 z2 : str_int z1 = str_int z2 → z1 = z2.
Proof.
  unfold str_int. intros H.
  apply (f_equal NilEmpty.int_of_string) in H. rewrite !NilEmpty.isi in H.
  injection H as H. apply (f_equal Z.of_int) in H. by rewrite !DecimalZ.of_to in H.
Qed.

Lemma string_of_uint_no_space d :
  contains " " (NilEmpty.string_of_uint d) = false.
Proof.
  induction d; cbn [NilEmpty.string_of_uint]; [done|..];
    apply contains_cons; split; done.
Qed.

Lemma str_int_no_space z : contains " " (str_int z) = false.
Proof.
  unfold str_int. destruct (Z.to_int z) as [d|d]; cbn [NilEmpty.string_of_int].
  - apply string_of_uint_no_space.
  - apply contains_cons. split; [done|]. apply string_of_uint_no_space.
Qed.

Lemma str_id_no_space i : contains " " (str_id i) = false.
Proof. destruct i; [apply str_int_no_space | reflexivity]. Qed.

Lemma str_int_not_None z : str_int z ≠ "None".
Proof.
  intros H. apply (f_equal NilEmpty.int_of_string) in H.
  unfold str_int in H. rewrite NilEmpty.isi in H. discriminate.
Qed.

Lemma str_id_inj i1 i2 : str_id i1 = str_id i2 → i1 = i2.
Proof.
  destruct i1 as [z1|], i2 as [z2|]; cbn; intros H.
  - f_equal. by apply str_int_inj.
  - by apply str_int_not_None in H.
  - symmetry in H. by apply str_int_not_None in H.
  - done.
Qed.

(** X9: [__repr__] tells instances apart.  When the [medium] of two
    instances contains no single quote, equal representations mean equal
    [id], user, [medium] and [source]. *)
Theorem repr_determines_the_fields_it_prints (a b : LeadSource) :
  contains squote (medium a) = false →
  contains squote (medium b) = false →
  __repr__ a = __repr__ b →
  id a = id b ∧ user_id a = user_id b ∧ medium a = medium b ∧ source a = source b.
Proof.
  intros Ha Hb H. unfold __repr__ in H. push_append_in H.
  injection H as H.
  apply append_split_at in H as [Hid H]; [|apply str_id_no_space..].
  push_append_in H. injection H as H.
  apply append_split_at in H as [Huser H]; [|apply str_int_no_space..].
  push_append_in H. injection H as H.
  apply append_split_at in H as [Hmedium H]; [|done..].
  push_append_in H. injection H as H.
  apply append_cancel_r in H.
  split; [by apply str_id_inj|]. split; [by apply str_int_inj|]. done.
Qed.

(** X10: neither printing method escapes the text of [medium] and
    [source]: a piece of text that begins with the separator (the quote
    and [ source='] in [__repr__], the slash in [__str__]) prints the same
    at the end of [medium] and at the start of [source]. *)
Theorem printing_does_not_escape_its_separators
    (str_user : Z → string) (self : LeadSource) (m s1 s2 : string) :
  __repr__ (with_medium_source (m +:+ "' source='" +:+ s1) s2 self) =
  __repr__ (with_medium_source m (s1 +:+ "' source='" +:+ s2) self) ∧
  __str__ str_user (with_medium_source (m +:+ "/" +:+ s1) s2 self) =
  __str__ str_user (with_medium_source m (s1 +:+ "/" +:+ s2) self).
Proof.
  unfold __repr__, __str__. cbn [id user_id medium source with_medium_source].
  rewrite !append_assoc. done.
Qed.

End PrintingProperties.

(** * Further properties of revision 0004 *)

Section MoreMigrationProperties.

Import Migration_0004.

Lemma apply_0004_Some (db db' : gmap string table) :
  apply_migration Migration db = Some db' ↔
  ∃ t, db !! "leadsource" = Some t ∧ ("session_key" ∉ columns t) ∧
       db' = (<["leadsource" := with_session_key t]> db).
Proof.
  unfold apply_migration, Migration.
  cbn [operations apply_operations apply_operation]. split.
  - destruct (db !! "leadsource") as [t|] eqn:Ht; [|discriminate].
    destruct (decide ("session_key" ∈ columns t)) as [Hin|Hfresh].
    + unfold add_field. rewrite bool_decide_eq_true_2 by done. discriminate.
    + rewrite (add_field_session_key t Hfresh). intros [= <-]. eauto.
  - intros (t & -> & Hfresh & ->). by rewrite (add_field_session_key t Hfresh).
Qed.

Lemma filter_all {A} (P : A → Prop) `{∀ x, Decision (P x)} (l : list A) :
  (∀ x, x ∈ l → P x) → filter P l = l.
Proof.
  induction l as [|a l IH]; intros Hall; [done|].
  rewrite filter_cons_True by (apply Hall; by left).
  f_equal. apply IH. intros x Hx. apply Hall. by right.
Qed.

Lemma delete_insert_rows (k : string) (v : value) (rws : list (gmap string value)) :
  (∀ r, r ∈ rws → r !! k = None) →
  (λ r, delete k r) <$> ((λ r, <[k := v]> r) <$> rws) = rws.
Proof.
  induction rws as [|r rws IH]; intros Hrows; [done|].
  rewrite !fmap_cons. f_equal.
  - rewrite delete_insert_eq. apply delete_id, Hrows. by left.
  - apply IH. intros r' Hr'. apply Hrows. by right.
Qed.

(** X13: unapplying the revision after applying it gives the database
    back, when no row of the table had a value under [session_key]
    before. *)
Theorem unapply_after_apply (db : gmap string table) (t : table) :
  db !! "leadsource" = Some t →
  "session_key" ∉ columns t →
  (∀ r, r ∈ rows t → r !! "session_key" = None) →
  ∃ db', apply_migration Migration db = Some db' ∧
         unapply_migration Migration db' = Some db.
Proof.
  intros Ht Hfresh Hrows.
  eexists. split; [apply apply_0004_Some; eauto|].
  unfold unapply_migration, Migration.
  cbn [operations unapply_operations unapply_operation].
  rewrite lookup_insert_eq. unfold remove_field, with_session_key. cbn [columns rows].
  rewrite bool_decide_eq_true_2 by (apply elem_of_app; right; by left).
  rewrite insert_insert_eq. f_equal. apply insert_id. rewrite Ht. f_equal.
  destruct t as [cols rws]. cbn [columns rows] in *. f_equal.
  - rewrite filter_app, filter_all by (intros x Hx ->; done).
    rewrite filter_cons_False by (intros Hne; by apply Hne).
    rewrite filter_nil. by rewrite app_nil_r.
  - by rewrite delete_insert_rows.
Qed.

(** X14: the revision and the model agree on the default.  The value
    that the revision writes under [session_key] into the rows that
    existed is the value that the constructor gives to [session_key]
    when the argument is left out. *)
Theorem backfilled_value_is_the_constructor_default
    (elapse : nat → N) (db db' : gmap string table) (t' : table)
    (i : nat) (r' : gmap string value) (kw : kwargs) (w w1 : World)
    (obj : LeadSource) :
  apply_migration Migration db = Some db' →
  db' !! "leadsource" = Some t' →
  rows t' !! i = Some r' →
  kw_session_key kw = None →
  Model_init elapse kw w = (Return obj, w1) →
  ∃ s, read_back r' "session_key" = Some (VStr s) ∧ ls_session_key obj = Some s.
Proof.
  intros (t & _ & _ & ->)%apply_0004_Some Ht' Hr' Hkw Hinit.
  rewrite lookup_insert_eq in Ht'. injection Ht' as <-.
  cbn [rows with_session_key] in Hr'.
  rewrite list_lookup_fmap in Hr'.
  destruct (rows t !! i) as [r|]; [|discriminate]. injection Hr' as <-.
  exists "". split; [apply lookup_insert_eq|].
  revert Hinit. unfold Model_init, bind, default_or, ret, timezone_now. rewrite Hkw.
  destruct (kw_timestamp kw), (kw_created_at kw); intros [= <- _]; reflexivity.
Qed.

End MoreMigrationProperties.

(** * The further properties at work on sample calls *)

Section MoreRuns.

Import Samples.

(** X1 on a database that raises [KeyError]. *)
Lemma never_KeyError_run :
  is_KeyError (ValueError "Missing utm param: 'pk'") = false.
Proof.
  apply (factory_never_raises_KeyError one_tick key_error_check 7 session_abc
           params_cpc empty_world _ refused_world).
  vm_compute; reflexivity.
Defined.

(** X3 on a mapping that has [utm_term] with the empty string. *)
Lemma empty_optional_value_run :
  create_from_utm_params one_tick strict_check 7 session_abc
    (delete "utm_term" params_empty_term) empty_world =
  create_from_utm_params one_tick strict_check 7 session_abc
    params_empty_term empty_world.
Proof.
  apply (empty_optional_value_may_be_left_out one_tick strict_check 7 session_abc
           params_empty_term "utm_term" empty_world).
  - right. left.
  - vm_compute; reflexivity.
Defined.

(** X4 on two calls with a refused call in between. *)
Lemma dates_run :
  (timestamp (cpc_record (Some "abc")) ≤ created_at (cpc_record (Some "abc")))%Z ∧
  (created_at (cpc_record (Some "abc")) ≤ timestamp later_record)%Z ∧
  (timestamp later_record ≤ created_at later_record)%Z.
Proof.
  apply (dates_follow_the_order_of_calls one_tick strict_check
           7 session_abc params_cpc 7 session_abc params_cpc
           [call_long_medium] empty_world (cpc_world (Some "abc"))
           (run_calls one_tick strict_check [call_long_medium]
              (cpc_world (Some "abc"))).2
           (cpc_record (Some "abc")) later_record later_world).
  - vm_compute; reflexivity.
  - reflexivity.
  - vm_compute; reflexivity.
Defined.

Lemma identifiers_ok_empty_world : identifiers_ok empty_world.
Proof.
  split.
  - intros r Hr. by apply elem_of_nil in Hr.
  - apply NoDup_nil_2.
Defined.

(** X6 on four calls, two of which fail. *)
Lemma identifiers_run :
  NoDup (id <$> returned
           (run_calls one_tick strict_check
              [call_cpc; call_long_medium; call_no_medium; call_cpc] empty_world).1).
Proof.
  exact (proj1 (proj2 (identifiers_stay_distinct one_tick strict_check
                         [call_cpc; call_long_medium; call_no_medium; call_cpc]
                         empty_world identifiers_ok_empty_world))).
Defined.

(** X7 on the same call made twice. *)
Lemma repeated_call_run :
  db_rows next_world = [cpc_record (Some "abc"); next_record] ∧
  id next_record ≠ id (cpc_record (Some "abc")).
Proof.
  destruct (repeated_call_creates_a_second_record one_tick strict_check 7
              session_abc params_cpc empty_world
              (cpc_record (Some "abc")) (cpc_world (Some "abc"))
              next_record next_world) as (Hrows & Hid & _).
  - vm_compute; reflexivity.
  - vm_compute; reflexivity.
  - split; [exact Hrows | exact Hid].
Defined.

(** X8 on a table that holds one record already. *)
Lemma latest_run :
  ∃ l, latest next_world = Return l ∧ timestamp l = 1002%Z.
Proof.
  destruct (created_record_is_latest one_tick strict_check 7 session_abc params_cpc
              (cpc_world (Some "abc")) next_record next_world)
    as (_ & l & Hlatest & _ & Hts & _).
  - intros r Hr. apply list_elem_of_singleton in Hr as ->. cbn. lia.
  - vm_compute; reflexivity.
  - exists l. split; [exact Hlatest | exact Hts].
Defined.

(** X9 on two instances that differ in [session_key] only. *)
Lemma repr_run :
  id (cpc_record (Some "abc")) = id (cpc_record None) ∧
  user_id (cpc_record (Some "abc")) = user_id (cpc_record None) ∧
  medium (cpc_record (Some "abc")) = medium (cpc_record None) ∧
  source (cpc_record (Some "abc")) = source (cpc_record None).
Proof.
  apply (repr_determines_the_fields_it_prints (cpc_record (Some "abc"))
           (cpc_record None)); reflexivity.
Defined.

Lemma old_table_has_no_session_key :
  "session_key" ∉ Migration_0004.columns old_table.
Proof.
  vm_compute. intros H.
  repeat (inversion H as [|? ? ? H']; clear H; rename H' into H).
Defined.

(** X13 on the table with one row. *)
Lemma unapply_run :
  ∃ db', Migration_0004.apply_migration Migration_0004.Migration old_database =
           Some db' ∧
         Migration_0004.unapply_migration Migration_0004.Migration db' =
           Some old_database.
Proof.
  apply (unapply_after_apply old_database old_table).
  - vm_compute; reflexivity.
  - exact old_table_has_no_session_key.
  - intros r Hr. apply list_elem_of_singleton in Hr as ->. vm_compute; reflexivity.
Defined.

(** X14 on the table with one row and a record built without
    [session_key]. *)
Lemma constructor_default_run :
  ∃ s, Migration_0004.read_back
         (<["session_key" := Migration_0004.VStr ""]> old_row) "session_key" =
         Some (Migration_0004.VStr s) ∧
       ls_session_key unsaved_record = Some s.
Proof.
  apply (backfilled_value_is_the_constructor_default one_tick old_database
           new_database (Migration_0004.with_session_key old_table) 0%nat
           (<["session_key" := Migration_0004.VStr ""]> old_row)
           kwargs_without_session_key empty_world refused_world unsaved_record).
  - vm_compute; reflexivity.
  - vm_compute; reflexivity.
  - reflexivity.
  - reflexivity.
  - vm_compute; reflexivity.
Defined.

End MoreRuns.
